(** * ShimmerGSRPlus: the Shimmer GSR+ session wrapper

    A shallow embedding of
    [modules/sensing_modules/shimmer/sensing/device/gsrplus.py].

    The wrapper is glue over three collaborators that the module imports:
    the vendor driver object [Shimmer3], the constants of [shimmer_util]
    and the serial port listing [list_ports.comports].  None of them is
    defined in the module, so the driver is an interface (a type class),
    the constants are fields of a record, and the port listing and the
    console are part of the environment the methods run in.  Every
    interaction with a collaborator is recorded, in program order, in the
    environment's trace. *)

From stdpp Require Import gmap strings list fin_maps pretty.
From Stdlib Require Import ZArith.

Open Scope Z_scope.
Open Scope string_scope.
Open Scope list_scope.

(** ** Python values and exceptions *)

(** The exceptions the module's code paths can raise. *)
Inductive exn : Type :=
  | AttributeError (msg : string)
  | KeyError (key : string)
  | IndexError (msg : string)
  | RuntimeError (msg : string)
  | EOFError
  | StopIteration.

(** A call either returns a value or raises. *)
Inductive result (A : Type) : Type :=
  | Returns (a : A)
  | Raises (e : exn).
Arguments Returns {A} a.
Arguments Raises {A} e.

(** The entries of [list_ports.comports()]; only [device] is read. *)
Record ListPortInfo : Type := { device : string }.

(** What a caller can pass as [port]: [None] (the default), a [str] (what
    the signature and the docstring announce) or a port descriptor. *)
Inductive value : Type :=
  | VNone
  | VStr (s : string)
  | VPortInfo (p : ListPortInfo).

(** [v.device] *)
Definition getattr_device (v : value) : result string :=
  match v with
  | VNone => Raises (AttributeError "'NoneType' object has no attribute 'device'")
  | VStr _ => Raises (AttributeError "'str' object has no attribute 'device'")
  | VPortInfo p => Returns (device p)
  end.

(** The constants the module reads from [shimmer_util] (imported as [su]);
    [code] is whatever type they have there. *)
Record shimmer_util (code : Type) : Type := {
  SHIMMER_GSRplus : code;
  BT_CONNECTED : code;
  SENSOR_GSR : code;
  SENSOR_INT_EXP_ADC_CH13 : code;
  GSR_SKIN_CONDUCTANCE : code
}.
Arguments SHIMMER_GSRplus {code} _.
Arguments BT_CONNECTED {code} _.
Arguments SENSOR_GSR {code} _.
Arguments SENSOR_INT_EXP_ADC_CH13 {code} _.
Arguments GSR_SKIN_CONDUCTANCE {code} _.

(** ** The driver interface *)

Module Shimmer3.
(** The methods and the attribute of [Shimmer3] that the wrapper uses.
    [D] is the driver object's state, [V] the type of one packet field;
    a packet is a tuple of fields, a batch a list of packets.  Methods
    that the wrapper tests return a [bool]; [start_bt_streaming],
    [print_object_properties] and [disconnect] have their results
    discarded by the wrapper, so only their effect on [D] is kept. *)
Class driver (code V D : Type) : Type := {
  init : code -> bool -> D;
  current_state : D -> code;
  connect : string -> D -> bool * D;
  set_sampling_rate : Z -> D -> bool * D;
  set_enabled_sensors : code -> code -> D -> bool * D;
  set_active_gsr_mu : code -> D -> bool * D;
  print_object_properties : D -> D;
  start_bt_streaming : D -> D;
  read_data_packet_extended : bool -> D -> (Z * list (list V)) * D;
  disconnect : bool -> D -> D
}.
End Shimmer3.

(** ** Recorded interactions *)

Inductive event (code : Type) : Type :=
  | Printed (line : string)
  | Input (prompt : string)
  | Comports
  | DevConnect (com_port : string)
  | DevSetSamplingRate (sampling_rate : Z)
  | DevSetEnabledSensors (s1 s2 : code)
  | DevSetActiveGsrMu (mu : code)
  | DevPrintObjectProperties
  | DevStartBtStreaming
  | DevReadDataPacketExtended (calibrated : bool)
  | DevDisconnect (reset_obj_to_init : bool).
Arguments Printed {code} line.
Arguments Input {code} prompt.
Arguments Comports {code}.
Arguments DevConnect {code} com_port.
Arguments DevSetSamplingRate {code} sampling_rate.
Arguments DevSetEnabledSensors {code} s1 s2.
Arguments DevSetActiveGsrMu {code} mu.
Arguments DevPrintObjectProperties {code}.
Arguments DevStartBtStreaming {code}.
Arguments DevReadDataPacketExtended {code} calibrated.
Arguments DevDisconnect {code} reset_obj_to_init.

(** An event that is a call on the driver object. *)
Definition is_driver_call {code} (ev : event code) : bool :=
  match ev with
  | Printed _ | Input _ | Comports => false
  | _ => true
  end.

(** ** The session object and its environment *)

(** [self]: the two attributes [__init__] sets. *)
Record ShimmerGSRPlus (D : Type) : Type := {
  _device : D;
  sampling_rate : Z
}.
Arguments Build_ShimmerGSRPlus {D} _ _.
Arguments _device {D} _.
Arguments sampling_rate {D} _.

(** The session together with what its methods interact with: the lines
    waiting on standard input, the ports [comports()] lists, and the
    trace of interactions so far (oldest first). *)
Record env (code D : Type) : Type := {
  self : ShimmerGSRPlus D;
  stdin : list string;
  comports : list ListPortInfo;
  trace : list (event code)
}.
Arguments Build_env {code D} _ _ _ _.
Arguments self {code D} _.
Arguments stdin {code D} _.
Arguments comports {code D} _.
Arguments trace {code D} _.

(** ** The monad of the methods: state over [env], with exceptions *)

Definition M (code D A : Type) : Type := env code D -> result A * env code D.

Definition ret {code D A} (a : A) : M code D A := fun e => (Returns a, e).

Definition raise {code D A} (x : exn) : M code D A := fun e => (Raises x, e).

Definition bind {code D A B} (m : M code D A) (k : A -> M code D B) : M code D B :=
  fun e =>
    match m e with
    | (Returns a, e') => k a e'
    | (Raises x, e') => (Raises x, e')
    end.

(** A pure computation that may raise. *)
Definition lift {code D A} (r : result A) : M code D A := fun e => (r, e).

Declare Scope py_scope.
Delimit Scope py_scope with py.
Notation "'do' x <- c1 ; c2" := (bind c1 (fun x => c2))
  (at level 10, x name, c1 at level 100, c2 at level 200) : py_scope.
Notation "'do' ' pat <- c1 ; c2" :=
  (bind c1 (fun x => match x with pat => c2 end))
  (at level 10, pat pattern, c1 at level 100, c2 at level 200) : py_scope.
Notation "'run' c1 ; c2" := (bind c1 (fun _ => c2))
  (at level 10, c1 at level 100, c2 at level 200) : py_scope.
Open Scope py_scope.

(** ** The methods of [ShimmerGSRPlus] *)

Section Methods.
Context {code V D : Type} `{EqDecision code}.
Context (su : shimmer_util code) `{drv : !Shimmer3.driver code V D}.

Local Abbreviation M := (M code D).
Local Abbreviation env := (env code D).

(** *** Primitive interactions *)

Definition record (ev : event code) (e : env) : env :=
  {| self := self e; stdin := stdin e; comports := comports e;
     trace := trace e ++ [ev] |}.

Definition set_device (d : D) (e : env) : env :=
  {| self := {| _device := d; sampling_rate := sampling_rate (self e) |};
     stdin := stdin e; comports := comports e; trace := trace e |}.

(** [print(line)] *)
Definition print (line : string) : M unit :=
  fun e => (Returns tt, record (Printed line) e).

(** [input(prompt)]: the next line of standard input, [EOFError] when
    there is none. *)
Definition input (prompt : string) : M string :=
  fun e =>
    match stdin e with
    | [] => (Raises EOFError, record (Input prompt) e)
    | l :: rest =>
        (Returns l,
         {| self := self e; stdin := rest; comports := comports e;
            trace := trace e ++ [Input prompt] |})
    end.

(** [list_ports.comports()] *)
Definition list_ports_comports : M (list ListPortInfo) :=
  fun e => (Returns (comports e), record Comports e).

(** [self.sampling_rate] *)
Definition self_sampling_rate : M Z :=
  fun e => (Returns (sampling_rate (self e)), e).

(** [self._device.current_state]: an attribute read, not a call. *)
Definition device_current_state : M code :=
  fun e => (Returns (Shimmer3.current_state (_device (self e))), e).

(** [self._device.<method>(...)]: the call is recorded and the driver
    object takes its new state. *)
Definition device_call {A} (ev : event code) (f : D -> A * D) : M A :=
  fun e =>
    let '(a, d') := f (_device (self e)) in
    (Returns a, record ev (set_device d' e)).

Definition device_do (ev : event code) (f : D -> D) : M unit :=
  device_call ev (fun d => (tt, f d)).

(** *** [__init__] (lines 9-16) *)
Definition __init__ (sampling_rate : Z) : ShimmerGSRPlus D :=
  {| _device := Shimmer3.init (SHIMMER_GSRplus su) true;
     sampling_rate := sampling_rate |}.

(** *** [connect] (lines 45-84) *)

(** The loop of lines 59-61, [k] counting from where [enumerate] is. *)
Fixpoint enumerate_comports (k : nat) (ps : list ListPortInfo)
    (available_ports : gmap string ListPortInfo)
    : M (gmap string ListPortInfo) :=
  match ps with
  | [] => ret available_ports
  | p :: ps' =>
      let available_ports := <[pretty k := p]> available_ports in
      run print (pretty k +:+ " - " +:+ device p) ;
      enumerate_comports (S k) ps' available_ports
  end.

(** Lines 56-65: the selection of the port. *)
Definition select_port (port : value) : M value :=
  match port with
  | VNone =>
      let available_ports : gmap string ListPortInfo := ∅ in
      run print "Loading the available ports..." ;
      do ps <- list_ports_comports ;
      do available_ports <- enumerate_comports 0 ps available_ports ;
      do index <- input "Select the correct port for the Shimmer GSR+: " ;
      match available_ports !! index with
      | Some p => ret (VPortInfo p)
      | None => raise (KeyError index)
      end
  | _ => ret port
  end.

(** Lines 67-84: the announcement and the connection on the chosen
    port. *)
Definition connect_chosen (chosen_port : value) : M bool :=
  do dev <- lift (getattr_device chosen_port) ;
  run print ("Selected " +:+ dev) ;
  do dev <- lift (getattr_device chosen_port) ;
  do opened <- device_call (DevConnect dev) (Shimmer3.connect dev) ;
  if opened then
    do sr <- self_sampling_rate ;
    do ok <- device_call (DevSetSamplingRate sr) (Shimmer3.set_sampling_rate sr) ;
    if negb ok then ret false else
    do ok <- device_call
               (DevSetEnabledSensors (SENSOR_GSR su) (SENSOR_INT_EXP_ADC_CH13 su))
               (Shimmer3.set_enabled_sensors (SENSOR_GSR su)
                  (SENSOR_INT_EXP_ADC_CH13 su)) ;
    if negb ok then ret false else
    do ok <- device_call (DevSetActiveGsrMu (GSR_SKIN_CONDUCTANCE su))
               (Shimmer3.set_active_gsr_mu (GSR_SKIN_CONDUCTANCE su)) ;
    if negb ok then ret false else
    do dev <- lift (getattr_device chosen_port) ;
    run print ("Shimmer GSR+ connected to " +:+ dev +:+ ".") ;
    run device_do DevPrintObjectProperties Shimmer3.print_object_properties ;
    ret true
  else ret false.

Definition connect (port : value) : M bool :=
  do chosen_port <- select_port port ;
  connect_chosen chosen_port.

(** *** [disconnect] (lines 86-96) *)
Definition disconnect : M bool :=
  do st <- device_current_state ;
  if negb (bool_decide (st = BT_CONNECTED su)) then
    run device_do (DevDisconnect true) (Shimmer3.disconnect true) ;
    ret true
  else ret false.

(** *** [stream] (lines 18-43) *)

(** [pkt[i]] on a tuple, for the constant indices the loop uses. *)
Definition getitem (pkt : list V) (i : nat) : result V :=
  match pkt !! i with
  | Some v => Returns v
  | None => Raises (IndexError "tuple index out of range")
  end.

(** [reads[key].append(v)] *)
Definition append (key : string) (v : V) (reads : gmap string (list V))
    : result (gmap string (list V)) :=
  match reads !! key with
  | Some l => Returns (<[key := l ++ [v]]> reads)
  | None => Raises (KeyError key)
  end.

(** The loop of lines 35-41. *)
Fixpoint for_packets (packets : list (list V))
    (reads : gmap string (list V)) : M (gmap string (list V)) :=
  match packets with
  | [] => ret reads
  | pkt :: packets' =>
      do timestamp <- lift (getitem pkt 2) ;
      do ppg <- lift (getitem pkt 3) ;
      do eda <- lift (getitem pkt 4) ;
      do reads <- lift (append "timestamp" timestamp reads) ;
      do reads <- lift (append "PPG" ppg reads) ;
      do reads <- lift (append "EDA" eda reads) ;
      for_packets packets' reads
  end.

(** Lines 27-31, run once, when the generator is first resumed. *)
Definition stream_start : M unit :=
  do st <- device_current_state ;
  if bool_decide (st = BT_CONNECTED su) then
    run device_do DevStartBtStreaming Shimmer3.start_bt_streaming ;
    print "Data streaming started."
  else raise (RuntimeError "Bluetooth is not connected.").

(** Lines 33-43: one turn of [while True], up to its [yield]. *)
Definition stream_iteration : M (Z * gmap string (list V)) :=
  do '(n, packets) <- device_call (DevReadDataPacketExtended true)
                        (Shimmer3.read_data_packet_extended true) ;
  let reads : gmap string (list V) :=
    <["EDA" := []]> (<["PPG" := []]> (<["timestamp" := []]> ∅)) in
  do reads <- for_packets packets reads ;
  ret (n, reads).

(** [stream] contains a [yield], so it is a generator function: calling
    it runs none of its body and returns a generator object, whose frame
    is either not started, suspended at the [yield], or finished. *)
Inductive generator : Type := GEN_CREATED | GEN_SUSPENDED | GEN_CLOSED.

Definition stream : M generator := ret GEN_CREATED.

(** Running the frame up to its next [yield]: a yielded value leaves it
    suspended, an exception finishes it. *)
Definition resume {A} (m : M A) : env -> (result A * generator) * env :=
  fun e =>
    match m e with
    | (Returns a, e') => ((Returns a, GEN_SUSPENDED), e')
    | (Raises x, e') => ((Raises x, GEN_CLOSED), e')
    end.

(** [next(g)] *)
Definition next (g : generator)
    : env -> (result (Z * gmap string (list V)) * generator) * env :=
  match g with
  | GEN_CREATED => resume (run stream_start ; stream_iteration)
  | GEN_SUSPENDED => resume stream_iteration
  | GEN_CLOSED => fun e => ((Raises StopIteration, GEN_CLOSED), e)
  end.

(** [k] successive [next(g)], as a consumer loop issues them: the
    outcomes in order, an exception ending the loop. *)
Fixpoint pulls (k : nat) (g : generator) (e : env)
    : list (result (Z * gmap string (list V))) * (generator * env) :=
  match k with
  | O => ([], (g, e))
  | S k' =>
      match next g e with
      | ((Returns y, g'), e') =>
          let '(rs, ge) := pulls k' g' e' in (Returns y :: rs, ge)
      | ((Raises x, g'), e') => ([Raises x], (g', e'))
      end
  end.

End Methods.

(** ** What the properties are stated with *)

Section Vocabulary.
Context {code V D : Type}.

(** The field at index [i] of every packet of a batch, in batch order;
    [None] when some packet has no such field. *)
Definition column (i : nat) (packets : list (list V)) : option (list V) :=
  mapM (fun pkt : list V => pkt !! i) packets.

(** The dictionary [{'timestamp': ts, 'PPG': ps, 'EDA': es}]. *)
Definition reads_dict (ts ps es : list V) : gmap string (list V) :=
  <["EDA" := es]> (<["PPG" := ps]> (<["timestamp" := ts]> ∅)).

(** The samples of a yielded dictionary, one [(timestamp, PPG, EDA)]
    per position. *)
Definition samples (reads : gmap string (list V)) : list (V * V * V) :=
  zip (zip (default [] (reads !! "timestamp")) (default [] (reads !! "PPG")))
      (default [] (reads !! "EDA")).

(** The sample a packet carries: its fields 2, 3 and 4. *)
Definition packet_sample (pkt : list V) : option (V * V * V) :=
  match pkt !! 2%nat, pkt !! 3%nat, pkt !! 4%nat with
  | Some t, Some p, Some g => Some (t, p, g)
  | _, _, _ => None
  end.

(** What a batch and the value yielded for it have in common: the
    count, and the samples in order. *)
Definition carries (y : Z * gmap string (list V))
    (b : Z * list (list V)) : Prop :=
  y.1 = b.1 /\ Some <$> samples y.2 = packet_sample <$> b.2.

(** The events of a trace that are calls on the driver. *)
Definition driver_calls (t : list (event code)) : list (event code) :=
  filter (fun ev => is_driver_call ev = true) t.

(** Whether an error message contains a phrase. *)
Definition mentions (phrase msg : string) : bool :=
  bool_decide (is_Some (String.index 0 phrase msg)).

(** The values yielded among the outcomes of successive [next]. *)
Definition yielded {A} (rs : list (result A)) : list A :=
  omap (fun r => match r with Returns a => Some a | Raises _ => None end) rs.
End Vocabulary.

Section DriverVocabulary.
Context {code V D : Type} `{EqDecision code}.
Context (su : shimmer_util code) `{drv : !Shimmer3.driver code V D}.

(** The driver object as it is when the generator in state [g] reads
    its next batch: a generator not yet started starts streaming
    first. *)
Definition device_at_read (g : generator) (e : env code D) : D :=
  match g with
  | GEN_CREATED => Shimmer3.start_bt_streaming (_device (self e))
  | _ => _device (self e)
  end.

(** The first [k] batches a driver in state [d] delivers, with the
    counts it reports for them. *)
Fixpoint deliveries (k : nat) (d : D) : list (Z * list (list V)) :=
  match k with
  | O => []
  | S k' =>
      let '(b, d') := Shimmer3.read_data_packet_extended true d in
      b :: deliveries k' d'
  end.

(** The operations a client can apply to a session, and the environment
    each leaves behind. *)
Inductive operation : Type :=
  | OpConnect (port : value)
  | OpStream
  | OpNext (g : generator)
  | OpDisconnect.

Definition after (op : operation) (e : env code D) : env code D :=
  match op with
  | OpConnect port => (connect su port e).2
  | OpStream => (stream e).2
  | OpNext g => (next su g e).2
  | OpDisconnect => (disconnect su e).2
  end.

Definition after_all (ops : list operation) (e : env code D) : env code D :=
  foldl (fun e op => after op e) e ops.

(** The environment [e] with the driver object in state [d] and the
    events [evs] added to its trace. *)
Definition advanced (e : env code D) (d : D) (evs : list (event code))
    : env code D :=
  {| self := {| _device := d; sampling_rate := sampling_rate (self e) |};
     stdin := stdin e; comports := comports e; trace := trace e ++ evs |}.

(** The session still has the sampling rate [rate], and every
    [set_sampling_rate] call in the trace was made with it. *)
Definition keeps_rate (rate : Z) (e : env code D) : Prop :=
  sampling_rate (self e) = rate
  /\ forall r, DevSetSamplingRate r ∈ trace e -> r = rate.

(** A computation that keeps the rate, whatever its outcome, and whose
    returned values satisfy [Q]. *)
Definition preserves {A} (rate : Z) (m : M code D A) (Q : A -> Prop) : Prop :=
  forall e, keeps_rate rate e ->
    keeps_rate rate (m e).2 /\ forall a, (m e).1 = Returns a -> Q a.

(** A session as [__init__] leaves it, in a given console and port
    listing, before any interaction. *)
Definition fresh (rate : Z) (lines : list string)
    (ports : list ListPortInfo) : env code D :=
  {| self := __init__ su rate; stdin := lines; comports := ports;
     trace := [] |}.
End DriverVocabulary.

Section ConsoleVocabulary.
Context {code D : Type}.

(** The environment [e] with the events [evs] added to its trace. *)
Definition logged (e : env code D) (evs : list (event code)) : env code D :=
  {| self := self e; stdin := stdin e; comports := comports e;
     trace := trace e ++ evs |}.

(** The environment [e] once [input] has read its first line. *)
Definition answered (e : env code D) (prompt : string) : env code D :=
  {| self := self e; stdin := tail (stdin e); comports := comports e;
     trace := trace e ++ [Input prompt] |}.

(** The lines the loop of lines 59-61 prints for the ports [ps], the
    first one numbered [k]. *)
Fixpoint listing (k : nat) (ps : list ListPortInfo) : list (event code) :=
  match ps with
  | [] => []
  | p :: ps' =>
      Printed (pretty k +:+ " - " +:+ device p) :: listing (S k) ps'
  end.

(** The dictionary the same loop builds on top of [available_ports]. *)
Fixpoint port_table (k : nat) (ps : list ListPortInfo)
    (available_ports : gmap string ListPortInfo)
    : gmap string ListPortInfo :=
  match ps with
  | [] => available_ports
  | p :: ps' => port_table (S k) ps' (<[pretty k := p]> available_ports)
  end.

(** The events up to the prompt of an interactive selection. *)
Definition selection_dialogue (ps : list ListPortInfo) : list (event code) :=
  [Printed "Loading the available ports..."; Comports] ++ listing 0 ps
  ++ [Input "Select the correct port for the Shimmer GSR+: "].
End ConsoleVocabulary.

(** ** A scripted driver, as a test double *)

Module Stub.
(** Packet fields as a test supplies them.  A float is kept as the
    decimal literal [digits * 10^exp10]; the wrapper passes fields on
    without computing on them. *)
Inductive pyval : Type :=
  | PyNone
  | PyInt (z : Z)
  | PyFloat (digits : Z) (exp10 : Z).

(** The stub's constants are the names themselves. *)
Definition su : shimmer_util string := {|
  SHIMMER_GSRplus := "SHIMMER_GSRplus";
  BT_CONNECTED := "BT_CONNECTED";
  SENSOR_GSR := "SENSOR_GSR";
  SENSOR_INT_EXP_ADC_CH13 := "SENSOR_INT_EXP_ADC_CH13";
  GSR_SKIN_CONDUCTANCE := "GSR_SKIN_CONDUCTANCE"
|}.

(** The state the stub reports, the answers it gives to the four tested
    calls, and the batches it still has to deliver. *)
Record state : Type := {
  reported : string;
  open_ok : bool;
  rate_ok : bool;
  sensors_ok : bool;
  unit_ok : bool;
  script : list (Z * list (list pyval))
}.

Definition report (st : string) (s : state) : state :=
  {| reported := st; open_ok := open_ok s; rate_ok := rate_ok s;
     sensors_ok := sensors_ok s; unit_ok := unit_ok s; script := script s |}.

Definition deliver (s : state) : (Z * list (list pyval)) * state :=
  match script s with
  | [] => ((0, []), s)
  | b :: rest =>
      (b, {| reported := reported s; open_ok := open_ok s;
             rate_ok := rate_ok s; sensors_ok := sensors_ok s;
             unit_ok := unit_ok s; script := rest |})
  end.

#[global] Instance driver : Shimmer3.driver string pyval state := {|
  Shimmer3.init _ _ :=
    {| reported := "BT_IDLE"; open_ok := true; rate_ok := true;
       sensors_ok := true; unit_ok := true; script := [] |};
  Shimmer3.current_state := reported;
  Shimmer3.connect _ s :=
    (open_ok s, if open_ok s then report "BT_CONNECTED" s else s);
  Shimmer3.set_sampling_rate _ s := (rate_ok s, s);
  Shimmer3.set_enabled_sensors _ _ s := (sensors_ok s, s);
  Shimmer3.set_active_gsr_mu _ s := (unit_ok s, s);
  Shimmer3.print_object_properties s := s;
  Shimmer3.start_bt_streaming s := report "BT_STREAMING" s;
  Shimmer3.read_data_packet_extended _ s := deliver s;
  Shimmer3.disconnect _ s := report "BT_IDLE" s
|}.

(** A session on a stub in the given state, with a quiet console. *)
Definition session (s : state) (rate : Z) : env string state :=
  {| self := {| _device := s; sampling_rate := rate |};
     stdin := []; comports := []; trace := [] |}.

Definition stub (st : string) (o r s u : bool)
    (bs : list (Z * list (list pyval))) : state :=
  {| reported := st; open_ok := o; rate_ok := r; sensors_ok := s;
     unit_ok := u; script := bs |}.

(** A port descriptor and the console of a user who picks entry 0. *)
Definition port0 : ListPortInfo := {| device := "/dev/rfcomm0" |}.

Definition interactive (s : state) (rate : Z) : env string state :=
  {| self := {| _device := s; sampling_rate := rate |};
     stdin := ["0"]; comports := [port0]; trace := [] |}.

(** A packet with nothing of interest in its first two fields. *)
Definition packet (t ppg eda : pyval) : list pyval :=
  [PyNone; PyNone; t; ppg; eda].

(** A batch of one packet whose fields 2, 3, 4 are [t], [ppg], [eda],
    reported with count 1; [f0], [f1] and [rest] are the other
    fields. *)
Definition batch_of_one (f0 f1 t ppg eda : pyval) (rest : list pyval)
    : Z * list (list pyval) :=
  (1, [f0 :: f1 :: t :: ppg :: eda :: rest]).
End Stub.

(** * Properties *)

Section Properties.
Context {code V D : Type} `{EqDecision code}.
Context (su : shimmer_util code) `{drv : !Shimmer3.driver code V D}.

Local Abbreviation env := (env code D).
Implicit Types (e : env) (g : generator) (port : value).

  (** The driver object of the session. *)
Local Abbreviation dev e := (_device (self e)).

Lemma stream_start_disconnected e :
  Shimmer3.current_state (dev e) <> BT_CONNECTED su ->
  stream_start su e = (Raises (RuntimeError "Bluetooth is not connected."), e).
Proof.
  intros Hne. unfold stream_start, bind, device_current_state.
  rewrite bool_decide_eq_false_2 by exact Hne. reflexivity.
Qed.

Lemma stream_start_connected e :
  Shimmer3.current_state (dev e) = BT_CONNECTED su ->
  stream_start su e =
    (Returns tt,
     record (Printed "Data streaming started.")
       (record DevStartBtStreaming
          (set_device (Shimmer3.start_bt_streaming (dev e)) e))).
Proof.
  intros Heq. unfold stream_start, bind, device_current_state.
  rewrite bool_decide_eq_true_2 by exact Heq. reflexivity.
Qed.

(** *** The dictionary of one batch *)

Lemma reads_dict_lookup_timestamp (ts ps es : list V) :
  reads_dict ts ps es !! "timestamp" = Some ts.
Proof. reflexivity. Qed.

Lemma reads_dict_lookup_PPG (ts ps es : list V) :
  reads_dict ts ps es !! "PPG" = Some ps.
Proof. reflexivity. Qed.

Lemma reads_dict_lookup_EDA (ts ps es : list V) :
  reads_dict ts ps es !! "EDA" = Some es.
Proof. reflexivity. Qed.

Lemma append_timestamp (v : V) (ts ps es : list V) :
  append "timestamp" v (reads_dict ts ps es) = Returns (reads_dict (ts ++ [v]) ps es).
Proof. reflexivity. Qed.

Lemma append_PPG (v : V) (ts ps es : list V) :
  append "PPG" v (reads_dict ts ps es) = Returns (reads_dict ts (ps ++ [v]) es).
Proof. reflexivity. Qed.

Lemma append_EDA (v : V) (ts ps es : list V) :
  append "EDA" v (reads_dict ts ps es) = Returns (reads_dict ts ps (es ++ [v])).
Proof. reflexivity. Qed.

Lemma reads_dict_dom (ts ps es : list V) :
  dom (reads_dict ts ps es) = ({["timestamp"; "PPG"; "EDA"]} : gset string).
Proof.
  unfold reads_dict. rewrite !dom_insert_L, dom_empty_L. set_solver.
Qed.

Lemma reads_dict_inj (ts ps es ts' ps' es' : list V) :
  reads_dict ts ps es = reads_dict ts' ps' es' ->
  ts = ts' /\ ps = ps' /\ es = es'.
Proof.
  intros Heq.
  pose proof (f_equal (fun m => m !! "timestamp") Heq) as Ht.
  pose proof (f_equal (fun m => m !! "PPG") Heq) as Hp.
  pose proof (f_equal (fun m => m !! "EDA") Heq) as He.
  cbv beta in Ht, Hp, He.
  rewrite !reads_dict_lookup_timestamp in Ht.
  rewrite !reads_dict_lookup_PPG in Hp.
  rewrite !reads_dict_lookup_EDA in He.
  by simplify_eq.
Qed.

(** One packet with at least five fields adds its fields 2, 3, 4 at the
    end of the three lists; a shorter one raises [IndexError]. *)
Lemma for_packets_eq (packets : list (list V)) (ts ps es : list V) e :
  for_packets packets (reads_dict ts ps es) e =
    (match column 2 packets, column 3 packets, column 4 packets with
     | Some ts', Some ps', Some es' =>
         Returns (reads_dict (ts ++ ts') (ps ++ ps') (es ++ es'))
     | _, _, _ => Raises (IndexError "tuple index out of range")
     end, e).
Proof.
  revert ts ps es.
  induction packets as [|pkt packets IH]; intros ts ps es.
  - cbn. by rewrite !app_nil_r.
  - destruct pkt as [|f0 [|f1 [|t [|p [|g rest]]]]]; try reflexivity.
    + cbn [for_packets]. unfold bind at 1. cbn.
      unfold column. cbn. by destruct (mapM _ packets).
    + cbn [for_packets]. unfold bind, lift. cbn.
      unfold column. cbn.
      destruct (mapM (fun pkt : list V => pkt !! 2%nat) packets); cbn; [|done].
      by destruct (mapM (fun pkt : list V => pkt !! 3%nat) packets).
    + cbn [for_packets]. unfold bind, lift. cbn [getitem lookup].
      change ([f0; f1; t; p; g] ++ rest) with (f0 :: f1 :: t :: p :: g :: rest).
      cbn.
      rewrite append_timestamp, append_PPG, append_EDA, IH.
      unfold column.
      destruct (mapM (fun pkt : list V => pkt !! 2%nat) packets) as [ts'|]; cbn; [|done].
      destruct (mapM (fun pkt : list V => pkt !! 3%nat) packets) as [ps'|]; cbn; [|done].
      destruct (mapM (fun pkt : list V => pkt !! 4%nat) packets) as [es'|]; cbn; [|done].
      by rewrite <- !app_assoc.
Qed.

(** *** One turn of the loop *)

Lemma stream_iteration_eq e n (packets : list (list V)) d' :
  Shimmer3.read_data_packet_extended true (dev e) = ((n, packets), d') ->
  stream_iteration e =
    (match column 2 packets, column 3 packets, column 4 packets with
     | Some ts, Some ps, Some es => Returns (n, reads_dict ts ps es)
     | _, _, _ => Raises (IndexError "tuple index out of range")
     end,
     record (DevReadDataPacketExtended true) (set_device d' e)).
Proof.
  intros Hread. unfold stream_iteration, bind at 1, device_call.
  rewrite Hread. unfold bind.
  change (<["EDA" := []]> (<["PPG" := []]> (<["timestamp" := []]> ∅)))
    with (reads_dict (@nil V) [] []).
  rewrite for_packets_eq. cbn [app].
  by destruct (column 2 packets), (column 3 packets), (column 4 packets).
Qed.

(** Fields 2, 3 and 4 exist together exactly when field 4 does. *)
Lemma column_4_some (packets : list (list V)) :
  is_Some (column 4 packets) ->
  is_Some (column 2 packets) /\ is_Some (column 3 packets).
Proof.
  unfold column. induction packets as [|pkt packets IH]; cbn.
  - eauto.
  - destruct pkt as [|f0 [|f1 [|t [|p [|g rest]]]]]; cbn;
      try (intros [? ?]; discriminate).
    destruct (mapM (fun pkt : list V => pkt !! 4%nat) packets) as [es|];
      cbn; [|intros [? ?]; discriminate].
    intros _. destruct IH as [[ts ->] [ps ->]]; [eauto|]. cbn. eauto.
Qed.

Lemma column_length i (packets : list (list V)) l :
  column i packets = Some l -> length l = length packets.
Proof. unfold column. intros Hm. symmetry. by eapply length_mapM. Qed.

(** *** [disconnect] *)

(** C2: [disconnect] acts on the inverted guard.  When the driver's state is
    not connected it calls the driver's [disconnect(reset_obj_to_init=True)]
    (that one call, on the driver as it was) and returns [True]; when the
    driver is connected it returns [False] and the session, the driver and
    the trace are as before: the driver is not called. *)
Theorem disconnect_inverted_guard e :
  (Shimmer3.current_state (dev e) <> BT_CONNECTED su ->
   disconnect su e =
     (Returns true,
      record (DevDisconnect true)
        (set_device (Shimmer3.disconnect true (dev e)) e)))
  /\ (Shimmer3.current_state (dev e) = BT_CONNECTED su ->
      disconnect su e = (Returns false, e)).
Proof.
  split; intros Hst; unfold disconnect, bind at 1, device_current_state.
  - by rewrite bool_decide_eq_false_2.
  - by rewrite bool_decide_eq_true_2.
Qed.

(** *** [stream]: the precondition *)

(** C3: pulling from [stream()] while the driver is not connected raises
    the error whose message says "not connected", finishes the generator
    and leaves the environment as it was: no driver call, so neither a
    connection attempt nor a start of streaming.  While the driver is
    connected the pull makes exactly the calls [start_bt_streaming] and then
    [read_data_packet_extended(calibrated=True)], never raises
    [RuntimeError], and yields when the batch read has fields 2 to 4 in
    every packet. *)
Theorem stream_requires_connected e :
  (Shimmer3.current_state (dev e) <> BT_CONNECTED su ->
   exists msg,
     next su GEN_CREATED e = ((Raises (RuntimeError msg), GEN_CLOSED), e)
     /\ msg = "Bluetooth is not connected."
     /\ mentions "not connected" msg = true)
  /\ (Shimmer3.current_state (dev e) = BT_CONNECTED su ->
      exists r g' e',
        next su GEN_CREATED e = ((r, g'), e')
        /\ trace e' =
             trace e ++ [DevStartBtStreaming; Printed "Data streaming started.";
                         DevReadDataPacketExtended true]
        /\ (forall msg, r <> Raises (RuntimeError msg))
        /\ (is_Some (column 4
              (Shimmer3.read_data_packet_extended true
                 (Shimmer3.start_bt_streaming (dev e))).1.2) ->
            exists y, r = Returns y /\ g' = GEN_SUSPENDED)).
Proof.
  split; intros Hst.
  - exists "Bluetooth is not connected.". split; [|done].
    unfold next, resume, bind at 1.
    by rewrite stream_start_disconnected.
  - unfold next, resume, bind at 1.
    rewrite stream_start_connected by done.
    set (e1 := record _ _).
    destruct (Shimmer3.read_data_packet_extended true
                (Shimmer3.start_bt_streaming (dev e))) as [[n packets] d'] eqn:Hread.
    rewrite (stream_iteration_eq e1 n packets d') by exact Hread.
    pose proof (column_4_some packets) as Hcols. cbn [fst snd].
    destruct (column 4 packets) as [es|].
    + destruct Hcols as [[ts ->] [ps ->]]; [eauto|].
      eexists _, _, _. split; [reflexivity|]. cbn.
      split; [by rewrite <- !app_assoc|]. split; [done|]. eauto.
    + eexists _, _, _. split.
      { destruct (column 2 packets), (column 3 packets); reflexivity. }
      cbn. split; [by rewrite <- !app_assoc|]. split; [done|].
      intros [? ?]; discriminate.
Qed.

(** C10: the check is deferred to consumption.  Calling [stream()] on a
    disconnected session returns a generator, raises nothing and leaves the
    environment, trace included, untouched; the error is raised by the
    first [next] on that generator. *)
Theorem stream_check_deferred e :
  Shimmer3.current_state (dev e) <> BT_CONNECTED su ->
  exists gen,
    stream e = (Returns gen, e)
    /\ next su gen e =
         ((Raises (RuntimeError "Bluetooth is not connected."), GEN_CLOSED), e).
Proof.
  intros Hst. exists GEN_CREATED. split; [reflexivity|].
  unfold next, resume, bind at 1.
  by rewrite stream_start_disconnected.
Qed.

(** *** [stream]: the shape of what is yielded *)

(** C9: whenever [next] yields [(n, reads)], [reads] has exactly the keys
    'timestamp', 'PPG' and 'EDA', its three lists are as long as the batch
    the driver delivered in that pull, and [n] is the count the driver
    returned with that batch, whatever it is. *)
Theorem stream_batch_shape g e n (reads : gmap string (list V)) g' e' :
  next su g e = ((Returns (n, reads), g'), e') ->
  let '((n0, packets), _) :=
    Shimmer3.read_data_packet_extended true (device_at_read g e) in
  n = n0
  /\ dom reads = ({["timestamp"; "PPG"; "EDA"]} : gset string)
  /\ exists ts ps es,
       reads !! "timestamp" = Some ts /\ reads !! "PPG" = Some ps
       /\ reads !! "EDA" = Some es
       /\ length ts = length packets /\ length ps = length packets
       /\ length es = length packets.
Proof.
  assert (Hiter : forall e0 e0',
    resume (stream_iteration (V:=V)) e0 = ((Returns (n, reads), g'), e0') ->
    let '((n0, packets), _) :=
      Shimmer3.read_data_packet_extended true (dev e0) in
    n = n0
    /\ dom reads = ({["timestamp"; "PPG"; "EDA"]} : gset string)
    /\ exists ts ps es,
         reads !! "timestamp" = Some ts /\ reads !! "PPG" = Some ps
         /\ reads !! "EDA" = Some es
         /\ length ts = length packets /\ length ps = length packets
         /\ length es = length packets).
  { intros e0 e0'. unfold resume.
    destruct (Shimmer3.read_data_packet_extended true (dev e0))
      as [[n0 packets] d'] eqn:Hread.
    rewrite (stream_iteration_eq e0 n0 packets d') by exact Hread.
    destruct (column 2 packets) as [ts|] eqn:Hts; [|discriminate].
    destruct (column 3 packets) as [ps|] eqn:Hps; [|discriminate].
    destruct (column 4 packets) as [es|] eqn:Hes; [|discriminate].
    intros [= -> <- _ _]. split; [done|]. split; [apply reads_dict_dom|].
    exists ts, ps, es. repeat split; eauto using column_length. }
  destruct g; cbn [next device_at_read].
  - unfold resume at 1, bind at 1.
    destruct (decide (Shimmer3.current_state (dev e) = BT_CONNECTED su)) as [Hst|Hst].
    + rewrite stream_start_connected by done.
      set (e1 := record _ _). intros Hnext.
      apply (Hiter e1 e'). unfold resume. exact Hnext.
    + rewrite stream_start_disconnected by done. discriminate.
  - apply Hiter.
  - discriminate.
Qed.

(** *** [connect]: a [str] port *)

(** C7, at the failing input: for a [str] port, as the signature and the
    docstring announce it, [connect] raises [AttributeError] at line 67
    before anything is printed and before any driver call, so the string is
    never passed as [com_port]. *)
Theorem connect_str_port_raises (path : string) e :
  connect su (VStr path) e =
    (Raises (AttributeError "'str' object has no attribute 'device'"), e).
Proof. reflexivity. Qed.

(** *** [connect]: the outcome *)

(** The environment after the announcement and the driver's [connect]. *)
Lemma connect_chosen_open (p : ListPortInfo) e b0 d0 :
  Shimmer3.connect (device p) (dev e) = (b0, d0) ->
  b0 = false ->
  connect_chosen su (VPortInfo p) e =
    (Returns false,
     record (DevConnect (device p))
       (set_device d0 (record (Printed ("Selected " +:+ device p)) e))).
Proof.
  intros Hopen ->. unfold connect_chosen. cbn [getattr_device].
  unfold bind, lift, print, device_call. cbn. by rewrite Hopen.
Qed.

Lemma connect_chosen_eq (p : ListPortInfo) e d0 b1 d1 b2 d2 b3 d3 :
  Shimmer3.connect (device p) (dev e) = (true, d0) ->
  Shimmer3.set_sampling_rate (sampling_rate (self e)) d0 = (b1, d1) ->
  Shimmer3.set_enabled_sensors (SENSOR_GSR su) (SENSOR_INT_EXP_ADC_CH13 su) d1
    = (b2, d2) ->
  Shimmer3.set_active_gsr_mu (GSR_SKIN_CONDUCTANCE su) d2 = (b3, d3) ->
  let e0 := record (DevConnect (device p))
              (set_device d0 (record (Printed ("Selected " +:+ device p)) e)) in
  let e1 := record (DevSetSamplingRate (sampling_rate (self e)))
              (set_device d1 e0) in
  let e2 := record (DevSetEnabledSensors (SENSOR_GSR su)
                      (SENSOR_INT_EXP_ADC_CH13 su)) (set_device d2 e1) in
  let e3 := record (DevSetActiveGsrMu (GSR_SKIN_CONDUCTANCE su))
              (set_device d3 e2) in
  connect_chosen su (VPortInfo p) e =
    if b1 then
      if b2 then
        if b3 then
          (Returns true,
           record DevPrintObjectProperties
             (set_device (Shimmer3.print_object_properties d3)
                (record (Printed ("Shimmer GSR+ connected to " +:+ device p +:+ "."))
                   e3)))
        else (Returns false, e3)
      else (Returns false, e2)
    else (Returns false, e1).
Proof.
  intros Hopen Hrate Hsens Hunit. unfold connect_chosen. cbn [getattr_device].
  unfold bind, lift, print, device_call, device_do, self_sampling_rate.
  cbn. rewrite Hopen. cbn. rewrite Hrate. cbn.
  destruct b1; cbn; [|done]. rewrite Hsens. cbn.
  destruct b2; cbn; [|done]. rewrite Hunit. cbn.
  by destruct b3.
Qed.

(** C1: whenever the port selection yields a port descriptor, [connect]
    returns, and what it returns is the conjunction of the four driver
    answers: [True] exactly when the driver's [connect] and then
    [set_sampling_rate], [set_enabled_sensors] and [set_active_gsr_mu] all
    answer [True], [False] for every other combination of answers, a failed
    open included. *)
Theorem connect_true_iff port e (p : ListPortInfo) e1 b0 d0 b1 d1 b2 d2 b3 d3 :
  select_port port e = (Returns (VPortInfo p), e1) ->
  Shimmer3.connect (device p) (dev e1) = (b0, d0) ->
  Shimmer3.set_sampling_rate (sampling_rate (self e1)) d0 = (b1, d1) ->
  Shimmer3.set_enabled_sensors (SENSOR_GSR su) (SENSOR_INT_EXP_ADC_CH13 su) d1
    = (b2, d2) ->
  Shimmer3.set_active_gsr_mu (GSR_SKIN_CONDUCTANCE su) d2 = (b3, d3) ->
  (connect su port e).1 = Returns (b0 && b1 && b2 && b3)
  /\ ((connect su port e).1 = Returns true
      <-> b0 = true /\ b1 = true /\ b2 = true /\ b3 = true)
  /\ ((connect su port e).1 = Returns false
      <-> b0 = false \/ b1 = false \/ b2 = false \/ b3 = false).
Proof.
  intros Hsel Hopen Hrate Hsens Hunit.
  assert (Hres : (connect su port e).1 = Returns (b0 && b1 && b2 && b3)).
  { unfold connect, bind at 1. rewrite Hsel.
    destruct b0.
    - rewrite (connect_chosen_eq p e1 d0 b1 d1 b2 d2 b3 d3) by done.
      by destruct b1, b2, b3.
    - by rewrite (connect_chosen_open p e1 false d0). }
  rewrite Hres. split; [done|].
  destruct b0, b1, b2, b3; cbn; split; split; try intros [=]; auto;
    try (intros (? & ? & ? & ?); discriminate);
    try (intros [|[|[|]]]; discriminate).
Qed.

(** C4: with the port selected and the driver opened, the three
    configuration calls are made in the order sampling rate, sensors,
    measurement unit, and the first one answering [False] ends [connect]:
    it returns [False] (it does not raise), the trace ends with the failed
    call, so no later configuration call and no undoing call was made, and
    the driver object is as the failed call left it. *)
Theorem connect_short_circuits port e (p : ListPortInfo) e1 d0 b1 d1 b2 d2 b3 d3 :
  select_port port e = (Returns (VPortInfo p), e1) ->
  Shimmer3.connect (device p) (dev e1) = (true, d0) ->
  Shimmer3.set_sampling_rate (sampling_rate (self e1)) d0 = (b1, d1) ->
  Shimmer3.set_enabled_sensors (SENSOR_GSR su) (SENSOR_INT_EXP_ADC_CH13 su) d1
    = (b2, d2) ->
  Shimmer3.set_active_gsr_mu (GSR_SKIN_CONDUCTANCE su) d2 = (b3, d3) ->
  let opened := [Printed ("Selected " +:+ device p); DevConnect (device p)] in
  let rate := DevSetSamplingRate (sampling_rate (self e1)) in
  let sensors :=
    DevSetEnabledSensors (SENSOR_GSR su) (SENSOR_INT_EXP_ADC_CH13 su) in
  let unit := DevSetActiveGsrMu (GSR_SKIN_CONDUCTANCE su) in
  (b1 = false ->
   connect su port e = (Returns false, advanced e1 d1 (opened ++ [rate])))
  /\ (b1 = true -> b2 = false ->
      connect su port e =
        (Returns false, advanced e1 d2 (opened ++ [rate; sensors])))
  /\ (b1 = true -> b2 = true -> b3 = false ->
      connect su port e =
        (Returns false, advanced e1 d3 (opened ++ [rate; sensors; unit]))).
Proof.
  intros Hsel Hopen Hrate Hsens Hunit opened rate sensors unit.
  assert (Hc : connect su port e = connect_chosen su (VPortInfo p) e1).
  { unfold connect, bind. by rewrite Hsel. }
  rewrite Hc, (connect_chosen_eq p e1 d0 b1 d1 b2 d2 b3 d3) by done.
  subst opened rate sensors unit. cbv zeta.
  repeat split; intros; subst; cbv iota; f_equal;
    unfold advanced, record, set_device;
    cbn [self trace stdin comports _device sampling_rate];
    by rewrite <- !app_assoc.
Qed.

(** *** The sampling rate *)

Section Rate.
Variable rate : Z.

Lemma keeps_rate_record (ev : event code) e :
  keeps_rate rate e ->
  (forall r, ev = DevSetSamplingRate r -> r = rate) ->
  keeps_rate rate (record ev e).
Proof.
  intros [Hself Htrace] Hev. split; [exact Hself|].
  intros r [Hin|Hin%list_elem_of_singleton]%elem_of_app; auto.
Qed.

Lemma keeps_rate_set_device d e :
  keeps_rate rate e -> keeps_rate rate (set_device d e).
Proof. intros [Hself Htrace]. split; [exact Hself|exact Htrace]. Qed.

Lemma preserves_ret {A} (a : A) (Q : A -> Prop) :
  Q a -> preserves rate (ret a : M code D A) Q.
Proof. intros Ha e He. split; [exact He|]. by intros ? [= <-]. Qed.

Lemma preserves_raise {A} x (Q : A -> Prop) :
  preserves rate (raise x : M code D A) Q.
Proof. intros e He. split; [exact He|]. intros ? [=]. Qed.

Lemma preserves_lift {A} (r : result A) :
  preserves rate (lift r : M code D A) (fun _ => True).
Proof. intros e He. split; [exact He|done]. Qed.

Lemma preserves_bind {A B} (m : M code D A) (k : A -> M code D B)
    (Q : A -> Prop) (Q' : B -> Prop) :
  preserves rate m Q ->
  (forall a, Q a -> preserves rate (k a) Q') ->
  preserves rate (bind m k) Q'.
Proof.
  intros Hm Hk e He. unfold bind.
  destruct (Hm e He) as [He' Hval].
  destruct (m e) as [[a|x] e']; cbn in *.
  - apply (Hk a); [by apply Hval|exact He'].
  - split; [exact He'|]. intros ? [=].
Qed.

Lemma preserves_print line :
  preserves rate (print line : M code D unit) (fun _ => True).
Proof.
  intros e He. split; [|done]. apply keeps_rate_record; [exact He|].
  intros ? [=].
Qed.

Lemma preserves_input prompt :
  preserves rate (input prompt : M code D string) (fun _ => True).
Proof.
  intros e [Hself Htrace]. split; [|done]. unfold input.
  destruct (stdin e); (split; [exact Hself|]); cbn;
    intros r [Hin|[=]%list_elem_of_singleton]%elem_of_app; auto.
Qed.

Lemma preserves_comports :
  preserves rate (list_ports_comports : M code D _) (fun _ => True).
Proof.
  intros e He. split; [|done]. apply keeps_rate_record; [exact He|].
  intros ? [=].
Qed.

Lemma preserves_self_sampling_rate :
  preserves rate (self_sampling_rate : M code D Z) (fun sr => sr = rate).
Proof.
  intros e He. split; [exact He|]. intros a [= <-]. by destruct He.
Qed.

Lemma preserves_device_call {A} (ev : event code) (f : D -> A * D) :
  (forall r, ev = DevSetSamplingRate r -> r = rate) ->
  preserves rate (device_call ev f) (fun _ => True).
Proof.
  intros Hev e He. split; [|done]. unfold device_call.
  destruct (f (dev e)) as [a d']. cbn.
  by apply keeps_rate_record, Hev; apply keeps_rate_set_device.
Qed.

Lemma preserves_enumerate_comports k ps available_ports :
  preserves rate (enumerate_comports k ps available_ports : M code D _)
    (fun _ => True).
Proof.
  revert k available_ports.
  induction ps as [|p ps IH]; intros k available_ports; cbn.
  - by apply preserves_ret.
  - eapply preserves_bind; [apply preserves_print|]. intros _ _. apply IH.
Qed.

Lemma preserves_select_port port :
  preserves rate (select_port port : M code D value) (fun _ => True).
Proof.
  destruct port; cbn; try by apply preserves_ret.
  eapply preserves_bind; [apply preserves_print|]. intros _ _.
  eapply preserves_bind; [apply preserves_comports|]. intros ps _.
  eapply preserves_bind; [apply preserves_enumerate_comports|].
  intros available_ports _.
  eapply preserves_bind; [apply preserves_input|]. intros index _.
  destruct (available_ports !! index).
  - by apply preserves_ret.
  - apply preserves_raise.
Qed.

Lemma preserves_connect_chosen chosen_port :
  preserves rate (connect_chosen su chosen_port) (fun _ => True).
Proof.
  unfold connect_chosen.
  eapply preserves_bind; [apply preserves_lift|]. intros dev0 _.
  eapply preserves_bind; [apply preserves_print|]. intros _ _.
  eapply preserves_bind; [apply preserves_lift|]. intros dev1 _.
  eapply preserves_bind; [by apply preserves_device_call|].
  intros [] _; [|by apply preserves_ret].
  eapply preserves_bind; [apply preserves_self_sampling_rate|].
  intros sr ->.
  eapply preserves_bind; [apply preserves_device_call; by intros ? [=]|].
  intros [] _; cbn; [|by apply preserves_ret].
  eapply preserves_bind; [by apply preserves_device_call|].
  intros [] _; cbn; [|by apply preserves_ret].
  eapply preserves_bind; [by apply preserves_device_call|].
  intros [] _; cbn; [|by apply preserves_ret].
  eapply preserves_bind; [apply preserves_lift|]. intros dev2 _.
  eapply preserves_bind; [apply preserves_print|]. intros _ _.
  eapply preserves_bind; [by apply preserves_device_call|]. intros _ _.
  by apply preserves_ret.
Qed.

Lemma preserves_connect port :
  preserves rate (connect su port) (fun _ => True).
Proof.
  eapply preserves_bind; [apply preserves_select_port|].
  intros chosen_port _. apply preserves_connect_chosen.
Qed.

Lemma preserves_disconnect : preserves rate (disconnect su) (fun _ => True).
Proof.
  unfold disconnect.
  eapply preserves_bind with (Q := fun _ => True); [by intros e He|].
  intros st _. destruct (negb _); [|by apply preserves_ret].
  eapply preserves_bind; [by apply preserves_device_call|]. intros _ _.
  by apply preserves_ret.
Qed.

Lemma preserves_for_packets (packets : list (list V)) reads :
  preserves rate (for_packets packets reads : M code D _) (fun _ => True).
Proof.
  revert reads. induction packets as [|pkt packets IH]; intros reads; cbn.
  - by apply preserves_ret.
  - do 6 (eapply preserves_bind; [apply preserves_lift|]; intros ? _).
    apply IH.
Qed.

Lemma preserves_stream_start : preserves rate (stream_start su) (fun _ => True).
Proof.
  unfold stream_start.
  eapply preserves_bind with (Q := fun _ => True); [by intros e He|].
  intros st _. destruct (bool_decide _); [|apply preserves_raise].
  eapply preserves_bind; [by apply preserves_device_call|]. intros _ _.
  apply preserves_print.
Qed.

Lemma preserves_stream_iteration :
  preserves rate (stream_iteration (V:=V)) (fun _ => True).
Proof.
  unfold stream_iteration.
  eapply preserves_bind; [by apply preserves_device_call|].
  intros [n packets] _.
  eapply preserves_bind; [apply preserves_for_packets|]. intros reads _.
  by apply preserves_ret.
Qed.

Lemma resume_env {A} (m : M code D A) e : (resume m e).2 = (m e).2.
Proof. unfold resume. by destruct (m e) as [[a|x] e']. Qed.

Lemma keeps_rate_after op e :
  keeps_rate rate e -> keeps_rate rate (after su op e).
Proof.
  intros He. destruct op as [port| |g|]; cbn.
  - by apply (preserves_connect port).
  - exact He.
  - destruct g; cbn [next]; rewrite ?resume_env.
    + assert (Hp : preserves rate
                (bind (stream_start su) (fun _ => stream_iteration (V:=V)))
                (fun _ => True)).
      { eapply preserves_bind; [apply preserves_stream_start|].
        intros _ _. apply preserves_stream_iteration. }
      by apply Hp.
    + by apply preserves_stream_iteration.
    + exact He.
  - by apply preserves_disconnect.
Qed.

Lemma keeps_rate_after_all ops e :
  keeps_rate rate e -> keeps_rate rate (after_all su ops e).
Proof.
  revert e. induction ops as [|op ops IH]; intros e He; cbn.
  - exact He.
  - apply IH. by apply keeps_rate_after.
Qed.

End Rate.

(** C8: the sampling rate is the one given to [__init__] and stays so.
    After any sequence of [connect], [stream], [next] and [disconnect] on a
    session built with [rate], the session's [sampling_rate] is [rate] and
    every [set_sampling_rate] call the driver ever received carried [rate];
    and a [connect] on a port descriptor whose open succeeds does make that
    call. *)
Theorem sampling_rate_fixed rate lines ports ops :
  sampling_rate (__init__ su rate) = rate
  /\ let e := after_all su ops (fresh su rate lines ports) in
     sampling_rate (self e) = rate
     /\ (forall r, DevSetSamplingRate r ∈ trace e -> r = rate)
     /\ (forall p : ListPortInfo,
           (Shimmer3.connect (device p) (dev e)).1 = true ->
           DevSetSamplingRate rate ∈ trace (connect su (VPortInfo p) e).2).
Proof.
  split; [reflexivity|]. intros e.
  assert (He : keeps_rate rate e).
  { apply keeps_rate_after_all. split; [reflexivity|].
    intros r Hin. by apply elem_of_nil in Hin. }
  destruct He as [Hrate Htrace].
  split; [exact Hrate|]. split; [exact Htrace|].
  intros p Hopen.
  destruct (Shimmer3.connect (device p) (dev e)) as [b0 d0] eqn:Hc.
  cbn in Hopen. subst b0.
  destruct (Shimmer3.set_sampling_rate (sampling_rate (self e)) d0)
    as [b1 d1] eqn:H1.
  destruct (Shimmer3.set_enabled_sensors (SENSOR_GSR su)
              (SENSOR_INT_EXP_ADC_CH13 su) d1) as [b2 d2] eqn:H2.
  destruct (Shimmer3.set_active_gsr_mu (GSR_SKIN_CONDUCTANCE su) d2)
    as [b3 d3] eqn:H3.
  unfold connect, bind at 1. cbn [select_port ret].
  rewrite (connect_chosen_eq p e d0 b1 d1 b2 d2 b3 d3) by done.
  rewrite Hrate.
  destruct b1, b2, b3; cbn; rewrite !elem_of_app, !list_elem_of_singleton;
    tauto.
Qed.

(** *** [stream]: what is yielded *)

Lemma samples_reads_dict (ts ps es : list V) :
  samples (reads_dict ts ps es) = zip (zip ts ps) es.
Proof. reflexivity. Qed.

(** The three columns of a batch whose packets all carry a sample are
    those samples, taken apart. *)
Lemma columns_of_samples (packets : list (list V)) :
  Forall (fun pkt => is_Some (packet_sample pkt)) packets ->
  exists ts ps es,
    column 2 packets = Some ts /\ column 3 packets = Some ps
    /\ column 4 packets = Some es
    /\ Some <$> zip (zip ts ps) es = packet_sample <$> packets.
Proof.
  induction 1 as [|pkt packets [[[t p] g] Hpkt] _ IH].
  - by exists [], [], [].
  - destruct IH as (ts & ps & es & Hts & Hps & Hes & Hzip).
    unfold packet_sample in Hpkt.
    destruct (pkt !! 2%nat) as [t'|] eqn:H2; [|done].
    destruct (pkt !! 3%nat) as [p'|] eqn:H3; [|done].
    destruct (pkt !! 4%nat) as [g'|] eqn:H4; [|done].
    exists (t' :: ts), (p' :: ps), (g' :: es).
    unfold column in *. cbn. rewrite H2, H3, H4, Hts, Hps, Hes. cbn.
    repeat split. unfold packet_sample at 1. rewrite H2, H3, H4.
    by rewrite Hzip.
Qed.

Lemma carries_concat (ys : list (Z * gmap string (list V)))
    (bs : list (Z * list (list V))) :
  Forall2 carries ys bs ->
  Some <$> concat ((fun y => samples y.2) <$> ys)
    = packet_sample <$> concat (snd <$> bs).
Proof.
  induction 1 as [|y b ys bs [_ Hyb] _ IH]; [done|].
  cbn. by rewrite !fmap_app, Hyb, IH.
Qed.

Lemma driver_calls_reads k :
  driver_calls (replicate k (DevReadDataPacketExtended (code:=code) true))
    = replicate k (DevReadDataPacketExtended true).
Proof.
  induction k as [|k IH]; [done|]. cbn [replicate].
  unfold driver_calls in *. rewrite filter_cons_True by done. by rewrite IH.
Qed.

Lemma deliveries_length k (d : D) : length (deliveries k d) = k.
Proof.
  revert d. induction k as [|k IH]; intros d; [done|].
  cbn [deliveries].
  destruct (Shimmer3.read_data_packet_extended true d) as [b d'].
  cbn. by rewrite IH.
Qed.

Lemma next_created_connected e :
  Shimmer3.current_state (dev e) = BT_CONNECTED su ->
  next su GEN_CREATED e =
    next su GEN_SUSPENDED
      (record (Printed "Data streaming started.")
         (record DevStartBtStreaming
            (set_device (Shimmer3.start_bt_streaming (dev e)) e))).
Proof.
  intros Hst. cbn [next]. unfold resume, bind at 1.
  by rewrite stream_start_connected.
Qed.

Lemma pulls_suspended k e :
  Forall (fun b => Forall (fun pkt => is_Some (packet_sample pkt)) b.2)
    (deliveries k (dev e)) ->
  exists ys ge,
    pulls su k GEN_SUSPENDED e = (Returns <$> ys, ge)
    /\ Forall2 carries ys (deliveries k (dev e))
    /\ trace ge.2 = trace e ++ replicate k (DevReadDataPacketExtended true).
Proof.
  revert e. induction k as [|k IH]; intros e Hwf.
  - exists [], (GEN_SUSPENDED, e). cbn. by rewrite app_nil_r.
  - cbn [deliveries] in *.
    destruct (Shimmer3.read_data_packet_extended true (dev e))
      as [[n packets] d'] eqn:Hread.
    apply Forall_cons in Hwf as [Hb Hwf].
    destruct (columns_of_samples packets Hb)
      as (ts & ps & es & Hts & Hps & Hes & Hzip).
    set (e1 := record (DevReadDataPacketExtended true) (set_device d' e)).
    destruct (IH e1 Hwf) as (ys & ge & Hpulls & Hcarry & Htrace).
    exists ((n, reads_dict ts ps es) :: ys), ge.
    cbn [pulls next]. unfold resume.
    rewrite (stream_iteration_eq e n packets d' Hread), Hts, Hps, Hes.
    fold e1. rewrite Hpulls. split; [done|]. split.
    + constructor; [|exact Hcarry]. split; [done|exact Hzip].
    + rewrite Htrace. cbn. by rewrite <- app_assoc.
Qed.

(** C6: on a connected driver, as long as every delivered packet carries
    its three fields, [k+1] pulls yield [k+1] values, the i-th for the i-th
    batch the driver delivered; each carries the driver's count and exactly
    the samples of its batch in the batch's order, so that the samples of
    all yields, put end to end, are the samples of all delivered packets in
    delivery order; and the driver was asked for one batch per yield, after
    the one start of streaming. *)
Theorem stream_preserves_order k e :
  Shimmer3.current_state (dev e) = BT_CONNECTED su ->
  let bs := deliveries (S k) (Shimmer3.start_bt_streaming (dev e)) in
  Forall (fun b => Forall (fun pkt => is_Some (packet_sample pkt)) b.2) bs ->
  exists ys ge,
    pulls su (S k) GEN_CREATED e = (Returns <$> ys, ge)
    /\ length ys = S k
    /\ Forall2 (fun y b =>
                  y.1 = b.1 /\ Some <$> samples y.2 = packet_sample <$> b.2)
         ys bs
    /\ Some <$> concat ((fun y => samples y.2) <$> ys)
         = packet_sample <$> concat (snd <$> bs)
    /\ driver_calls (trace ge.2) =
         driver_calls (trace e)
           ++ DevStartBtStreaming
              :: replicate (S k) (DevReadDataPacketExtended true).
Proof.
  intros Hst bs Hwf.
  set (e1 := record (Printed "Data streaming started.")
               (record DevStartBtStreaming
                  (set_device (Shimmer3.start_bt_streaming (dev e)) e))).
  destruct (pulls_suspended (S k) e1 Hwf) as (ys & ge & Hpulls & Hcarry & Htrace).
  exists ys, ge. split.
  { rewrite <- Hpulls. cbn [pulls]. by rewrite next_created_connected. }
  split.
  { apply Forall2_length in Hcarry. rewrite Hcarry.
    apply deliveries_length. }
  split; [exact Hcarry|]. split; [by apply carries_concat|].
  rewrite Htrace. unfold driver_calls at 1. rewrite filter_app.
  fold (driver_calls (replicate (S k)
          (DevReadDataPacketExtended (code:=code) true))).
  rewrite driver_calls_reads. cbn [e1 record set_device trace].
  rewrite <- !app_assoc. unfold driver_calls. rewrite filter_app.
  rewrite <- app_assoc. f_equal.
Qed.

(** C5: a pull reads one batch from the driver and the yielded lists are,
    packet by packet, the fields at indices 2, 3 and 4, under 'timestamp',
    'PPG' and 'EDA'; the yielded count is the batch's.  On the stub that is
    connected and delivers the batch [(t=100, ppg=0.5, eda=1.2)] and then
    the batch [(t=101, ppg=0.6, eda=1.3)], two pulls yield
    [(1, {timestamp: [100], PPG: [0.5], EDA: [1.2]})] and then
    [(1, {timestamp: [101], PPG: [0.6], EDA: [1.3]})]. *)
Theorem stream_extracts_fields :
  (forall g e n (packets : list (list V)) d' ts ps es,
     g = GEN_SUSPENDED
     \/ (g = GEN_CREATED
         /\ Shimmer3.current_state (dev e) = BT_CONNECTED su) ->
     Shimmer3.read_data_packet_extended true (device_at_read g e)
       = ((n, packets), d') ->
     Forall2 (fun pkt t => pkt !! 2%nat = Some t) packets ts ->
     Forall2 (fun pkt p => pkt !! 3%nat = Some p) packets ps ->
     Forall2 (fun pkt s => pkt !! 4%nat = Some s) packets es ->
     (next su g e).1 = (Returns (n, reads_dict ts ps es), GEN_SUSPENDED)
     /\ driver_calls (trace (next su g e).2) =
          driver_calls (trace e)
            ++ (if g is GEN_CREATED then [DevStartBtStreaming] else [])
            ++ [DevReadDataPacketExtended true])
  /\ (forall (f0 f1 f0' f1' : Stub.pyval) rest rest' rate,
        let batch1 :=
          Stub.batch_of_one f0 f1 (Stub.PyInt 100) (Stub.PyFloat 5 (-1))
            (Stub.PyFloat 12 (-1)) rest in
        let batch2 :=
          Stub.batch_of_one f0' f1' (Stub.PyInt 101) (Stub.PyFloat 6 (-1))
            (Stub.PyFloat 13 (-1)) rest' in
        (pulls Stub.su 2 GEN_CREATED
           (Stub.session
              (Stub.stub "BT_CONNECTED" true true true true [batch1; batch2])
              rate)).1
        = [Returns (1, reads_dict [Stub.PyInt 100] [Stub.PyFloat 5 (-1)]
                         [Stub.PyFloat 12 (-1)]);
           Returns (1, reads_dict [Stub.PyInt 101] [Stub.PyFloat 6 (-1)]
                         [Stub.PyFloat 13 (-1)])]).
Proof.
  split; [|reflexivity].
  intros g e n packets d' ts ps es Hg Hread Hts Hps Hes.
  assert (Hc2 : column 2 packets = Some ts) by (by apply mapM_Some).
  assert (Hc3 : column 3 packets = Some ps) by (by apply mapM_Some).
  assert (Hc4 : column 4 packets = Some es) by (by apply mapM_Some).
  assert (Hiter : forall e0,
    dev e0 = device_at_read g e ->
    (next su GEN_SUSPENDED e0).1
      = (Returns (n, reads_dict ts ps es), GEN_SUSPENDED)
    /\ trace (next su GEN_SUSPENDED e0).2
       = trace e0 ++ [DevReadDataPacketExtended true]).
  { intros e0 Hdev. cbn [next]. unfold resume.
    rewrite (stream_iteration_eq e0 n packets d') by (by rewrite Hdev).
    by rewrite Hc2, Hc3, Hc4. }
  destruct Hg as [->|[-> Hst]].
  - destruct (Hiter e eq_refl) as [Hres Htrace].
    split; [exact Hres|]. rewrite Htrace. unfold driver_calls.
    by rewrite filter_app.
  - rewrite next_created_connected by exact Hst.
    set (e1 := record _ _). destruct (Hiter e1 eq_refl) as [Hres Htrace].
    split; [exact Hres|]. rewrite Htrace. unfold driver_calls.
    rewrite filter_app. cbn [e1 record set_device trace].
    rewrite <- !app_assoc, filter_app. rewrite <- app_assoc. f_equal.
Qed.

End Properties.

Section Witnesses.

(** * The properties on the scripted driver *)

Lemma connect_true_iff_witness :
  (connect Stub.su VNone
     (Stub.interactive (Stub.stub "BT_IDLE" true true true true []) 64)).1
    = Returns (true && true && true && true)
  /\ (connect Stub.su (VPortInfo Stub.port0)
        (Stub.session (Stub.stub "BT_IDLE" true true false true []) 64)).1
     = Returns (true && true && false && true).
Proof.
  split.
  - eapply proj1.
    eapply (connect_true_iff Stub.su VNone) with (p := Stub.port0);
      reflexivity.
  - eapply proj1.
    eapply (connect_true_iff Stub.su (VPortInfo Stub.port0))
      with (p := Stub.port0); reflexivity.
Defined.

Lemma disconnect_inverted_guard_witness :
  let connected := Stub.session (Stub.stub "BT_CONNECTED" true true true true []) 64 in
  let idle := Stub.session (Stub.stub "BT_IDLE" true true true true []) 64 in
  disconnect Stub.su connected = (Returns false, connected)
  /\ disconnect Stub.su idle =
       (Returns true,
        advanced idle (Stub.stub "BT_IDLE" true true true true [])
          [DevDisconnect true]).
Proof.
  intros connected idle. split.
  - apply (proj2 (disconnect_inverted_guard Stub.su connected)). reflexivity.
  - rewrite (proj1 (disconnect_inverted_guard Stub.su idle));
      [reflexivity|discriminate].
Defined.

Lemma stream_requires_connected_witness :
  let idle := Stub.session (Stub.stub "BT_IDLE" true true true true []) 64 in
  let connected :=
    Stub.session
      (Stub.stub "BT_CONNECTED" true true true true
         [(1, [Stub.packet (Stub.PyInt 100) (Stub.PyFloat 5 (-1))
                 (Stub.PyFloat 12 (-1))])]) 64 in
  (exists msg,
     next Stub.su GEN_CREATED idle
       = ((Raises (RuntimeError msg), GEN_CLOSED), idle)
     /\ msg = "Bluetooth is not connected."
     /\ mentions "not connected" msg = true)
  /\ (exists r g' e',
        next Stub.su GEN_CREATED connected = ((r, g'), e')
        /\ trace e' =
             trace connected
               ++ [DevStartBtStreaming; Printed "Data streaming started.";
                   DevReadDataPacketExtended true]
        /\ exists y, r = Returns y /\ g' = GEN_SUSPENDED).
Proof.
  intros idle connected. split.
  - apply (proj1 (stream_requires_connected Stub.su idle)). discriminate.
  - destruct (proj2 (stream_requires_connected Stub.su connected))
      as (r & g' & e' & Hnext & Htrace & _ & Hyield); [reflexivity|].
    exists r, g', e'. split; [exact Hnext|]. split; [exact Htrace|].
    apply Hyield. by eexists.
Defined.

Lemma stream_check_deferred_witness :
  let idle := Stub.session (Stub.stub "BT_IDLE" true true true true []) 64 in
  exists gen,
    stream idle = (Returns gen, idle)
    /\ next Stub.su gen idle =
         ((Raises (RuntimeError "Bluetooth is not connected."), GEN_CLOSED),
          idle).
Proof.
  intros idle. apply (stream_check_deferred Stub.su idle). discriminate.
Defined.

Lemma connect_short_circuits_witness :
  let e := Stub.interactive (Stub.stub "BT_IDLE" true true false true []) 64 in
  let r := connect Stub.su VNone e in
  r.1 = Returns false
  /\ trace r.2 =
       [Printed "Loading the available ports..."; Comports;
        Printed "0 - /dev/rfcomm0";
        Input "Select the correct port for the Shimmer GSR+: ";
        Printed "Selected /dev/rfcomm0"; DevConnect "/dev/rfcomm0";
        DevSetSamplingRate 64;
        DevSetEnabledSensors "SENSOR_GSR" "SENSOR_INT_EXP_ADC_CH13"]
  /\ _device (self r.2) = Stub.stub "BT_CONNECTED" true true false true []
  /\ stdin r.2 = [].
Proof.
  intros e r.
  pose proof (connect_short_circuits Stub.su VNone e Stub.port0 _ _
                true _ false _ true _
                eq_refl eq_refl eq_refl eq_refl eq_refl) as H.
  cbv zeta in H. destruct H as (_ & H & _).
  subst r. rewrite (H eq_refl eq_refl). repeat split; reflexivity.
Defined.

Lemma stream_extracts_fields_witness :
  let e :=
    Stub.session
      (Stub.stub "BT_CONNECTED" true true true true
         [(2, [Stub.packet (Stub.PyInt 100) (Stub.PyFloat 5 (-1))
                 (Stub.PyFloat 12 (-1));
               Stub.packet (Stub.PyInt 101) (Stub.PyFloat 6 (-1))
                 (Stub.PyFloat 13 (-1))])]) 64 in
  (next Stub.su GEN_CREATED e).1 =
    (Returns (2, reads_dict [Stub.PyInt 100; Stub.PyInt 101]
                   [Stub.PyFloat 5 (-1); Stub.PyFloat 6 (-1)]
                   [Stub.PyFloat 12 (-1); Stub.PyFloat 13 (-1)]),
     GEN_SUSPENDED)
  /\ driver_calls (trace (next Stub.su GEN_CREATED e).2) =
       driver_calls (trace e)
         ++ [DevStartBtStreaming] ++ [DevReadDataPacketExtended true].
Proof.
  intros e.
  eapply (proj1 (stream_extracts_fields Stub.su) GEN_CREATED e).
  - right. split; reflexivity.
  - reflexivity.
  - repeat constructor.
  - repeat constructor.
  - repeat constructor.
Defined.

Lemma stream_preserves_order_witness :
  let e :=
    Stub.session
      (Stub.stub "BT_CONNECTED" true true true true
         [(2, [Stub.packet (Stub.PyInt 100) (Stub.PyFloat 5 (-1))
                 (Stub.PyFloat 12 (-1));
               Stub.packet (Stub.PyInt 101) (Stub.PyFloat 6 (-1))
                 (Stub.PyFloat 13 (-1))]);
          (1, [Stub.packet (Stub.PyInt 102) (Stub.PyFloat 7 (-1))
                 (Stub.PyFloat 14 (-1))])]) 64 in
  exists ys ge,
    pulls Stub.su 2 GEN_CREATED e = (Returns <$> ys, ge)
    /\ length ys = 2%nat
    /\ concat ((fun y => samples y.2) <$> ys) =
         [(Stub.PyInt 100, Stub.PyFloat 5 (-1), Stub.PyFloat 12 (-1));
          (Stub.PyInt 101, Stub.PyFloat 6 (-1), Stub.PyFloat 13 (-1));
          (Stub.PyInt 102, Stub.PyFloat 7 (-1), Stub.PyFloat 14 (-1))]
    /\ driver_calls (trace ge.2) =
         [DevStartBtStreaming; DevReadDataPacketExtended true;
          DevReadDataPacketExtended true].
Proof.
  intros e.
  assert (Hst : Shimmer3.current_state (_device (self e))
                = BT_CONNECTED Stub.su) by reflexivity.
  destruct (stream_preserves_order Stub.su 1 e Hst)
    as (ys & ge & Hpulls & Hlen & _ & Hall & Hcalls).
  - repeat constructor; by eexists.
  - exists ys, ge. split; [exact Hpulls|]. split; [exact Hlen|].
    split; [|exact Hcalls].
    apply (inj (fmap Some)). exact Hall.
Defined.

Lemma stream_batch_shape_witness :
  let pkt := Stub.packet (Stub.PyInt 100) (Stub.PyFloat 5 (-1))
               (Stub.PyFloat 12 (-1)) in
  let e := Stub.session
             (Stub.stub "BT_STREAMING" true true true true [(7, [pkt])]) 64 in
  let reads := reads_dict [Stub.PyInt 100] [Stub.PyFloat 5 (-1)]
                 [Stub.PyFloat 12 (-1)] in
  (next Stub.su GEN_SUSPENDED e).1 = (Returns (7, reads), GEN_SUSPENDED)
  /\ 7 = 7
  /\ dom reads = ({["timestamp"; "PPG"; "EDA"]} : gset string)
  /\ exists ts ps es,
       reads !! "timestamp" = Some ts /\ reads !! "PPG" = Some ps
       /\ reads !! "EDA" = Some es
       /\ length ts = length [pkt] /\ length ps = length [pkt]
       /\ length es = length [pkt].
Proof.
  intros pkt e reads. split; [reflexivity|].
  exact (stream_batch_shape Stub.su GEN_SUSPENDED e 7 reads GEN_SUSPENDED
           (next Stub.su GEN_SUSPENDED e).2 eq_refl).
Defined.

Lemma sampling_rate_fixed_witness :
  let e :=
    after_all Stub.su
      [OpConnect (VPortInfo Stub.port0); OpStream; OpNext GEN_CREATED;
       OpDisconnect; OpConnect VNone]
      (fresh Stub.su 64 ["0"] [Stub.port0]) in
  sampling_rate (self e) = 64
  /\ DevSetSamplingRate 64 ∈ trace (connect Stub.su (VPortInfo Stub.port0) e).2.
Proof.
  intros e.
  destruct (sampling_rate_fixed Stub.su 64 ["0"] [Stub.port0]
              [OpConnect (VPortInfo Stub.port0); OpStream; OpNext GEN_CREATED;
               OpDisconnect; OpConnect VNone])
    as (_ & Hrate & _ & Hcall).
  split; [exact Hrate|]. apply Hcall. reflexivity.
Defined.

End Witnesses.

(** * Beyond the session contract: the console, failures and edge cases *)

Section Further.
Context {code V D : Type} `{EqDecision code}.
Context (su : shimmer_util code) `{drv : !Shimmer3.driver code V D}.

Local Abbreviation env := (env code D).
Implicit Types (e : env) (g : generator) (port : value).
Local Abbreviation dev e := (_device (self e)).

(** *** Reading an environment after a run of interactions *)

Lemma self_record (ev : event code) e : self (record ev e) = self e.
Proof. reflexivity. Qed.

Lemma stdin_record (ev : event code) e : stdin (record ev e) = stdin e.
Proof. reflexivity. Qed.

Lemma comports_record (ev : event code) e :
  comports (record ev e) = comports e.
Proof. reflexivity. Qed.

Lemma trace_record (ev : event code) e :
  trace (record ev e) = trace e ++ [ev].
Proof. reflexivity. Qed.

Lemma device_set_device (d : D) e : dev (set_device d e) = d.
Proof. reflexivity. Qed.

Lemma sampling_rate_set_device (d : D) e :
  sampling_rate (self (set_device d e)) = sampling_rate (self e).
Proof. reflexivity. Qed.

Lemma stdin_set_device (d : D) e : stdin (set_device d e) = stdin e.
Proof. reflexivity. Qed.

Lemma comports_set_device (d : D) e :
  comports (set_device d e) = comports e.
Proof. reflexivity. Qed.

Lemma trace_set_device (d : D) e : trace (set_device d e) = trace e.
Proof. reflexivity. Qed.

Lemma env_eq e e' :
  dev e = dev e' ->
  sampling_rate (self e) = sampling_rate (self e') ->
  stdin e = stdin e' -> comports e = comports e' -> trace e = trace e' ->
  e = e'.
Proof.
  destruct e as [[d r] i c t], e' as [[d' r'] i' c' t']. cbn.
  by intros -> -> -> -> ->.
Qed.

Ltac read_env :=
  repeat first
    [ rewrite self_record | rewrite stdin_record | rewrite comports_record
    | rewrite trace_record | rewrite device_set_device
    | rewrite sampling_rate_set_device | rewrite stdin_set_device
    | rewrite comports_set_device | rewrite trace_set_device ];
  rewrite <- ?app_assoc.

(** *** The interactive selection *)

Lemma enumerate_comports_eq k ps available_ports e :
  enumerate_comports k ps available_ports e =
    (Returns (port_table k ps available_ports), logged e (listing k ps)).
Proof.
  revert k available_ports e.
  induction ps as [|p ps IH]; intros k available_ports e.
  - cbn. unfold ret, logged. rewrite app_nil_r. by destruct e.
  - cbn [enumerate_comports port_table listing]. unfold bind at 1, print.
    rewrite IH. unfold logged, record.
    cbn [self stdin comports trace]. by rewrite <- app_assoc.
Qed.

Lemma port_table_other k ps (m : gmap string ListPortInfo) key :
  (forall i, (i < length ps)%nat -> pretty (k + i)%nat <> key) ->
  port_table k ps m !! key = m !! key.
Proof.
  revert k m. induction ps as [|p ps IH]; intros k m Hkey; [done|].
  cbn [port_table]. rewrite IH.
  - apply lookup_insert_ne. specialize (Hkey 0%nat).
    rewrite Nat.add_0_r in Hkey. apply Hkey. cbn. lia.
  - intros i Hi. replace (S k + i)%nat with (k + S i)%nat by lia.
    apply Hkey. cbn. lia.
Qed.

Lemma port_table_lookup k ps (m : gmap string ListPortInfo) i p :
  ps !! i = Some p ->
  port_table k ps m !! pretty (k + i)%nat = Some p.
Proof.
  revert k m i. induction ps as [|q ps IH]; intros k m i Hi; [done|].
  cbn [port_table]. destruct i as [|i].
  - injection Hi as ->. rewrite Nat.add_0_r, port_table_other.
    + apply lookup_insert_eq.
    + intros j _ Heq. apply (inj pretty) in Heq. lia.
  - replace (k + S i)%nat with (S k + i)%nat by lia. by apply IH.
Qed.

Lemma select_port_none_eq e :
  select_port VNone e =
    let e1 := logged e
                ([Printed "Loading the available ports..."; Comports]
                 ++ listing 0 (comports e)) in
    let prompt := "Select the correct port for the Shimmer GSR+: " in
    match stdin e with
    | [] => (Raises EOFError, logged e1 [Input prompt])
    | index :: _ =>
        (match port_table 0 (comports e) ∅ !! index with
         | Some p => Returns (VPortInfo p)
         | None => Raises (KeyError index)
         end, answered e1 prompt)
    end.
Proof.
  destruct e as [slf lines cps tr].
  cbn [select_port]. unfold bind at 1, print.
  unfold bind at 1, list_ports_comports.
  unfold bind at 1. rewrite enumerate_comports_eq.
  unfold bind at 1, input, answered, logged, record.
  cbn [self stdin comports trace].
  destruct lines as [|index rest]; cbn [tail]; rewrite <- !app_assoc;
    [done|].
  by destruct (port_table 0 cps ∅ !! index).
Qed.

Lemma driver_calls_listing k ps :
  driver_calls (listing (code:=code) k ps) = [].
Proof.
  revert k. induction ps as [|p ps IH]; intros k; [done|].
  cbn [listing]. unfold driver_calls in *.
  rewrite filter_cons_False by done. apply IH.
Qed.

Lemma driver_calls_selection_dialogue ps :
  driver_calls (selection_dialogue (code:=code) ps) = [].
Proof.
  unfold selection_dialogue, driver_calls. rewrite !filter_app.
  fold (driver_calls (listing (code:=code) 0 ps)).
  by rewrite driver_calls_listing.
Qed.

(** What [connect] does once the port is a descriptor: it returns, leaves
    the console alone, and its events start with the announcement and the
    driver's [connect] on the descriptor's device. *)
Lemma connect_chosen_shape (p : ListPortInfo) e :
  exists b e' evs,
    connect_chosen su (VPortInfo p) e = (Returns b, e')
    /\ stdin e' = stdin e /\ comports e' = comports e
    /\ trace e' =
         trace e ++ Printed ("Selected " +:+ device p)
                 :: DevConnect (device p) :: evs
    /\ Forall (fun ev => ev <> Comports /\ forall prompt, ev <> Input prompt)
         evs.
Proof.
  destruct (Shimmer3.connect (device p) (dev e)) as [[] d0] eqn:Hopen.
  - destruct (Shimmer3.set_sampling_rate (sampling_rate (self e)) d0)
      as [b1 d1] eqn:H1.
    destruct (Shimmer3.set_enabled_sensors (SENSOR_GSR su)
                (SENSOR_INT_EXP_ADC_CH13 su) d1) as [b2 d2] eqn:H2.
    destruct (Shimmer3.set_active_gsr_mu (GSR_SKIN_CONDUCTANCE su) d2)
      as [b3 d3] eqn:H3.
    rewrite (connect_chosen_eq su p e d0 b1 d1 b2 d2 b3 d3) by done.
    cbv zeta.
    set (rate := DevSetSamplingRate (code:=code) (sampling_rate (self e))).
    set (sensors := DevSetEnabledSensors (SENSOR_GSR su)
                      (SENSOR_INT_EXP_ADC_CH13 su)).
    set (unit := DevSetActiveGsrMu (GSR_SKIN_CONDUCTANCE su)).
    set (done_line :=
           Printed (code:=code)
             ("Shimmer GSR+ connected to " +:+ device p +:+ ".")).
    assert (Hev : forall evs : list (event code),
      Forall (fun ev => is_driver_call ev = true
                        \/ exists line, ev = Printed line) evs ->
      Forall (fun ev => ev <> Comports /\ forall prompt, ev <> Input prompt)
        evs).
    { intros evs Hall. eapply Forall_impl; [exact Hall|].
      intros ev [Hcall|[line ->]]; [|done].
      split; [|intros prompt]; intros ->; discriminate. }
    destruct b1; [destruct b2; [destruct b3|]|].
    + exists true. eexists.
      exists [rate; sensors; unit; done_line; DevPrintObjectProperties].
      split; [reflexivity|]. split; [reflexivity|]. split; [reflexivity|].
      split; [by read_env|]. apply Hev.
      repeat (constructor; [first [by left|right; by eexists]|]).
      constructor.
    + exists false. eexists. exists [rate; sensors; unit].
      split; [reflexivity|]. split; [reflexivity|]. split; [reflexivity|].
      split; [by read_env|]. apply Hev. repeat (constructor; [by left|]).
      constructor.
    + exists false. eexists. exists [rate; sensors].
      split; [reflexivity|]. split; [reflexivity|]. split; [reflexivity|].
      split; [by read_env|]. apply Hev. repeat (constructor; [by left|]).
      constructor.
    + exists false. eexists. exists [rate].
      split; [reflexivity|]. split; [reflexivity|]. split; [reflexivity|].
      split; [by read_env|]. apply Hev. repeat (constructor; [by left|]).
      constructor.
  - rewrite (connect_chosen_open su p e false d0) by done.
    exists false. eexists. exists []. split; [reflexivity|].
    split; [reflexivity|]. split; [reflexivity|].
    split; [by read_env|]. constructor.
Qed.

(** X1: in the interactive selection, typing the number of a listed port
    selects that port: the ports are listed as "k - device" from 0 in the
    order [comports()] gives them, one line of input is consumed, and
    [connect] then opens the driver on the device of the chosen entry. *)
Theorem interactive_selection_picks_entry e k (p : ListPortInfo) rest :
  stdin e = pretty k :: rest ->
  comports e !! k = Some p ->
  select_port VNone e =
    (Returns (VPortInfo p),
     {| self := self e; stdin := rest; comports := comports e;
        trace := trace e ++ selection_dialogue (comports e) |})
  /\ exists calls,
       driver_calls (trace (connect su VNone e).2) =
         driver_calls (trace e) ++ DevConnect (device p) :: calls.
Proof.
  intros Hin Hk.
  assert (Hsel : select_port (code:=code) (D:=D) VNone e =
    (Returns (VPortInfo p),
     {| self := self e; stdin := rest; comports := comports e;
        trace := trace e ++ selection_dialogue (comports e) |})).
  { rewrite select_port_none_eq. cbv zeta. rewrite Hin.
    rewrite (port_table_lookup 0 (comports e) ∅ k p Hk).
    unfold answered, logged, selection_dialogue.
    cbn [self stdin comports trace]. rewrite Hin. cbn [tail].
    by rewrite <- !app_assoc. }
  split; [exact Hsel|].
  unfold connect, bind at 1. rewrite Hsel.
  set (e1 := {| self := self e |}).
  destruct (connect_chosen_shape p e1)
    as (b & e' & evs & -> & _ & _ & Htrace & _).
  exists (driver_calls evs). cbn [snd]. rewrite Htrace.
  unfold driver_calls. cbn [e1 trace]. rewrite !filter_app.
  fold (driver_calls (selection_dialogue (code:=code) (comports e))).
  rewrite driver_calls_selection_dialogue. cbn [app].
  rewrite filter_cons_False by done. rewrite filter_cons_True by done.
  by rewrite app_nil_r.
Qed.

(** X2: typing anything that is not the number of a listed port makes
    [connect] raise [KeyError] with the typed line as key; the line is
    consumed, the driver object is untouched and no driver call is made. *)
Theorem interactive_selection_rejects e index rest :
  stdin e = index :: rest ->
  (forall k, (k < length (comports e))%nat -> pretty k <> index) ->
  connect su VNone e =
    (Raises (KeyError index),
     {| self := self e; stdin := rest; comports := comports e;
        trace := trace e ++ selection_dialogue (comports e) |})
  /\ driver_calls (trace (connect su VNone e).2) = driver_calls (trace e).
Proof.
  intros Hin Hkey.
  assert (Hc : connect su VNone e =
    (Raises (KeyError index),
     {| self := self e; stdin := rest; comports := comports e;
        trace := trace e ++ selection_dialogue (comports e) |})).
  { unfold connect, bind at 1. rewrite select_port_none_eq. cbv zeta.
    rewrite Hin, port_table_other, lookup_empty by (intros i Hi; by apply Hkey).
    unfold answered, logged, selection_dialogue.
    cbn [self stdin comports trace]. rewrite Hin. cbn [tail].
    by rewrite <- !app_assoc. }
  split; [exact Hc|]. rewrite Hc. cbn [snd trace].
  unfold driver_calls. rewrite filter_app.
  fold (driver_calls (selection_dialogue (code:=code) (comports e))).
  by rewrite driver_calls_selection_dialogue, app_nil_r.
Qed.


(** *** [connect] on a selected port *)

(** X4: when the driver's [connect] answers [False], the wrapper's
    [connect] returns [False] after that single driver call: no
    configuration call is attempted. *)
Theorem connect_open_failure port e (p : ListPortInfo) e1 d0 :
  select_port port e = (Returns (VPortInfo p), e1) ->
  Shimmer3.connect (device p) (dev e1) = (false, d0) ->
  connect su port e =
    (Returns false,
     advanced e1 d0
       [Printed ("Selected " +:+ device p); DevConnect (device p)]).
Proof.
  intros Hsel Hopen. unfold connect, bind at 1. rewrite Hsel.
  rewrite (connect_chosen_open su p e1 false d0) by done.
  f_equal. apply env_eq; unfold advanced; cbn [self _device sampling_rate
    stdin comports trace]; by read_env.
Qed.

(** X5: on full success the driver receives, in this order, [connect] on
    the port's device, [set_sampling_rate] with the session's rate,
    [set_enabled_sensors(SENSOR_GSR, SENSOR_INT_EXP_ADC_CH13)],
    [set_active_gsr_mu(GSR_SKIN_CONDUCTANCE)] and
    [print_object_properties], the two announcements are printed around
    them, and [connect] returns [True]. *)
Theorem connect_success port e (p : ListPortInfo) e1 d0 d1 d2 d3 :
  select_port port e = (Returns (VPortInfo p), e1) ->
  Shimmer3.connect (device p) (dev e1) = (true, d0) ->
  Shimmer3.set_sampling_rate (sampling_rate (self e1)) d0 = (true, d1) ->
  Shimmer3.set_enabled_sensors (SENSOR_GSR su) (SENSOR_INT_EXP_ADC_CH13 su) d1
    = (true, d2) ->
  Shimmer3.set_active_gsr_mu (GSR_SKIN_CONDUCTANCE su) d2 = (true, d3) ->
  connect su port e =
    (Returns true,
     advanced e1 (Shimmer3.print_object_properties d3)
       [Printed ("Selected " +:+ device p);
        DevConnect (device p);
        DevSetSamplingRate (sampling_rate (self e1));
        DevSetEnabledSensors (SENSOR_GSR su) (SENSOR_INT_EXP_ADC_CH13 su);
        DevSetActiveGsrMu (GSR_SKIN_CONDUCTANCE su);
        Printed ("Shimmer GSR+ connected to " +:+ device p +:+ ".");
        DevPrintObjectProperties]).
Proof.
  intros Hsel Hopen Hrate Hsens Hunit. unfold connect, bind at 1.
  rewrite Hsel.
  rewrite (connect_chosen_eq su p e1 d0 true d1 true d2 true d3) by done.
  cbv zeta iota. f_equal.
  apply env_eq; unfold advanced; cbn [self _device sampling_rate
    stdin comports trace]; by read_env.
Qed.

(** X6: with a port descriptor as argument [connect] always returns a
    boolean, reads nothing from standard input, does not list the ports,
    and its first interaction with the driver is [connect] on the
    descriptor's device. *)
Theorem connect_descriptor_skips_console (p : ListPortInfo) e :
  exists b evs,
    (connect su (VPortInfo p) e).1 = Returns b
    /\ stdin (connect su (VPortInfo p) e).2 = stdin e
    /\ comports (connect su (VPortInfo p) e).2 = comports e
    /\ trace (connect su (VPortInfo p) e).2 =
         trace e ++ Printed ("Selected " +:+ device p)
                 :: DevConnect (device p) :: evs
    /\ Forall (fun ev => ev <> Comports /\ forall prompt, ev <> Input prompt)
         evs.
Proof.
  destruct (connect_chosen_shape p e)
    as (b & e' & evs & Hc & Hin & Hports & Htrace & Hevs).
  assert (Heq : connect su (VPortInfo p) e = (Returns b, e')).
  { unfold connect, bind at 1. cbn [select_port ret]. exact Hc. }
  exists b, evs. by rewrite Heq.
Qed.

(** *** [stream]: malformed batches and resumption *)

(** X7: a batch with a packet of fewer than five fields makes the pull
    raise [IndexError]; nothing is yielded for that batch, not even for
    its well-formed packets, although the driver has delivered it; the
    generator is finished and each later [next] raises [StopIteration]
    without touching the driver. *)
Theorem stream_short_packet g e n (packets : list (list V)) d' :
  g = GEN_SUSPENDED
  \/ (g = GEN_CREATED /\ Shimmer3.current_state (dev e) = BT_CONNECTED su) ->
  Shimmer3.read_data_packet_extended true (device_at_read g e)
    = ((n, packets), d') ->
  Exists (fun pkt => (length pkt < 5)%nat) packets ->
  (next su g e).1 = (Raises (IndexError "tuple index out of range"), GEN_CLOSED)
  /\ dev (next su g e).2 = d'
  /\ next su (next su g e).1.2 (next su g e).2 =
       ((Raises StopIteration, GEN_CLOSED), (next su g e).2).
Proof.
  intros Hg Hread Hshort.
  assert (Hc4 : column 4 packets = None).
  { apply mapM_None_2. eapply Exists_impl; [exact Hshort|].
    intros pkt Hlen. cbv beta in Hlen. apply lookup_ge_None_2. lia. }
  assert (Hiter : forall e0,
    dev e0 = device_at_read g e ->
    next su GEN_SUSPENDED e0 =
      ((Raises (IndexError "tuple index out of range"), GEN_CLOSED),
       record (DevReadDataPacketExtended true) (set_device d' e0))).
  { intros e0 Hdev. cbn [next]. unfold resume.
    rewrite (stream_iteration_eq e0 n packets d') by (by rewrite Hdev).
    rewrite Hc4. by destruct (column 2 packets), (column 3 packets). }
  assert (Hnext : exists e0,
    next su g e =
      ((Raises (IndexError "tuple index out of range"), GEN_CLOSED),
       record (DevReadDataPacketExtended true) (set_device d' e0))).
  { destruct Hg as [->|[-> Hst]].
    - exists e. by apply Hiter.
    - rewrite (next_created_connected su e Hst). eexists. by apply Hiter. }
  destruct Hnext as [e0 ->]. by repeat split.
Qed.

(** X8: the connection is checked only when the generator is started.  A
    suspended generator, whatever state the driver reports by then, asks
    the driver for one more batch and cannot raise the "not connected"
    error. *)
Theorem suspended_generator_does_not_recheck e :
  (forall msg, (next su GEN_SUSPENDED e).1.1 <> Raises (RuntimeError msg))
  /\ trace (next su GEN_SUSPENDED e).2
       = trace e ++ [DevReadDataPacketExtended true]
  /\ dev (next su GEN_SUSPENDED e).2
       = (Shimmer3.read_data_packet_extended true (dev e)).2.
Proof.
  destruct (Shimmer3.read_data_packet_extended true (dev e))
    as [[n packets] d'] eqn:Hread.
  cbn [next]. unfold resume.
  rewrite (stream_iteration_eq e n packets d' Hread).
  destruct (column 2 packets), (column 3 packets), (column 4 packets);
    by repeat split.
Qed.

End Further.

Section FurtherWitnesses.

Lemma interactive_selection_picks_entry_witness :
  let second := {| device := "/dev/rfcomm1" |} in
  let e : env string Stub.state :=
    {| self := __init__ Stub.su 64; stdin := ["1"; "left over"];
       comports := [Stub.port0; second]; trace := [] |} in
  select_port VNone e =
    (Returns (VPortInfo second),
     {| self := self e; stdin := ["left over"]; comports := comports e;
        trace := [Printed "Loading the available ports..."; Comports;
                  Printed "0 - /dev/rfcomm0"; Printed "1 - /dev/rfcomm1";
                  Input "Select the correct port for the Shimmer GSR+: "] |})
  /\ exists calls,
       driver_calls (trace (connect Stub.su VNone e).2) =
         DevConnect "/dev/rfcomm1" :: calls.
Proof.
  intros second e.
  exact (interactive_selection_picks_entry Stub.su e 1 second ["left over"]
           eq_refl eq_refl).
Defined.

Lemma interactive_selection_rejects_witness :
  let e : env string Stub.state :=
    {| self := __init__ Stub.su 64; stdin := ["01"];
       comports := [Stub.port0; Stub.port0]; trace := [] |} in
  (connect Stub.su VNone e).1 = Raises (KeyError "01")
  /\ driver_calls (trace (connect Stub.su VNone e).2) = [].
Proof.
  intros e.
  destruct (interactive_selection_rejects Stub.su e "01" []) as [Hc Hcalls].
  - reflexivity.
  - intros k Hk. cbn in Hk.
    destruct k as [|[|k]]; [discriminate|discriminate|lia].
  - split; [by rewrite Hc|exact Hcalls].
Defined.


Lemma connect_open_failure_witness :
  let s := Stub.stub "BT_IDLE" false true true true [] in
  connect Stub.su (VPortInfo Stub.port0) (Stub.session s 64) =
    (Returns false,
     advanced (Stub.session s 64) s
       [Printed "Selected /dev/rfcomm0"; DevConnect "/dev/rfcomm0"]).
Proof.
  intros s.
  exact (connect_open_failure Stub.su (VPortInfo Stub.port0)
           (Stub.session s 64) Stub.port0 (Stub.session s 64) s
           eq_refl eq_refl).
Defined.

Lemma connect_success_witness :
  let s := Stub.stub "BT_IDLE" true true true true [] in
  let s' := Stub.stub "BT_CONNECTED" true true true true [] in
  connect Stub.su (VPortInfo Stub.port0) (Stub.session s 64) =
    (Returns true,
     advanced (Stub.session s 64) s'
       [Printed "Selected /dev/rfcomm0"; DevConnect "/dev/rfcomm0";
        DevSetSamplingRate 64;
        DevSetEnabledSensors "SENSOR_GSR" "SENSOR_INT_EXP_ADC_CH13";
        DevSetActiveGsrMu "GSR_SKIN_CONDUCTANCE";
        Printed "Shimmer GSR+ connected to /dev/rfcomm0.";
        DevPrintObjectProperties]).
Proof.
  intros s s'.
  exact (connect_success Stub.su (VPortInfo Stub.port0)
           (Stub.session s 64) Stub.port0 (Stub.session s 64) s' s' s' s'
           eq_refl eq_refl eq_refl eq_refl eq_refl).
Defined.

Lemma stream_short_packet_witness :
  let good := Stub.packet (Stub.PyInt 100) (Stub.PyFloat 5 (-1))
                (Stub.PyFloat 12 (-1)) in
  let short := [Stub.PyNone; Stub.PyNone; Stub.PyInt 101; Stub.PyFloat 6 (-1)] in
  let e := Stub.session
             (Stub.stub "BT_CONNECTED" true true true true
                [(2, [good; short])]) 64 in
  (next Stub.su GEN_CREATED e).1
    = (Raises (IndexError "tuple index out of range"), GEN_CLOSED)
  /\ Stub.script (_device (self (next Stub.su GEN_CREATED e).2)) = [].
Proof.
  intros good short e.
  destruct (stream_short_packet Stub.su GEN_CREATED e 2 [good; short]
              (Stub.stub "BT_STREAMING" true true true true []))
    as (Hres & Hdev & _).
  - right. split; reflexivity.
  - reflexivity.
  - apply Exists_cons_tl, Exists_cons_hd. cbn. lia.
  - split; [exact Hres|]. by rewrite Hdev.
Defined.

End FurtherWitnesses.
